(** * The Bluebox Blocks driver of libcloud (libcloud/drivers/bluebox.py)

    A shallow embedding of the driver module: the response class
    [BlueboxResponse], the connection class [BlueboxConnection] and the node
    driver [BlueboxNodeDriver], followed by the properties of the driver's
    specification.

    Python values are embedded as the inductive type [pyval]; dictionaries are
    finite maps ([gmap]) with string keys.  Code that can raise returns a
    [result]; code that talks to the provider returns, besides its result,
    the requests it has handed to the transport, in order. *)

From Stdlib Require Import ZArith QArith String Ascii.
From stdpp Require Import base strings gmap list pretty.

Local Open Scope Z_scope.

(** ** Python values *)

#[warnings="-register-all"]
Inductive pyval : Type :=
  | VNone
  | VBool (b : bool)
  | VInt (n : Z)
  | VFloat (q : Q)
  | VStr (s : string)
  | VList (l : list pyval)
  | VDict (d : gmap string pyval).

(** The exceptions the module can meet. *)
Inductive exn : Type :=
  | KeyError (k : string)
  | TypeError
  | AttributeError (attr : string)
  | NameError (name : string)
  | InvalidCredsError (msg : string).

Inductive result (A : Type) : Type :=
  | Ok (a : A)
  | Raise (e : exn).
Arguments Ok {A} a.
Arguments Raise {A} e.

#[global] Instance result_ret : MRet result := fun _ a => Ok a.
#[global] Instance result_bind : MBind result := fun _ _ k r =>
  match r with
  | Ok a => k a
  | Raise e => Raise e
  end.
#[global] Instance result_fmap : FMap result := fun _ _ f r =>
  match r with
  | Ok a => Ok (f a)
  | Raise e => Raise e
  end.

(** A comprehension [[f(x) for x in l]]: the first failure ends it. *)
Fixpoint comprehension {A B : Type} (f : A -> result B) (l : list A)
  : result (list B) :=
  match l with
  | [] => Ok []
  | x :: xs => y ← f x; ys ← comprehension f xs; Ok (y :: ys)
  end.

(** [not v]-style truth test of a Python value. *)
Definition truthy (v : pyval) : bool :=
  match v with
  | VNone => false
  | VBool b => b
  | VInt n => negb (n =? 0)
  | VFloat q => negb (Qeq_bool q 0%Q)
  | VStr s => negb (String.eqb s "")
  | VList l => match l with [] => false | _ => true end
  | VDict d => negb (bool_decide (d = ∅))
  end.

(** [v == s] for a string literal [s]. *)
Definition eq_str (v : pyval) (s : string) : bool :=
  match v with
  | VStr t => String.eqb t s
  | _ => false
  end.

(** [v[k]] for a string key [k]: only a dictionary can be indexed by a
    string, and a missing key raises [KeyError]. *)
Definition getitem (v : pyval) (k : string) : result pyval :=
  match v with
  | VDict d =>
      match d !! k with
      | Some x => Ok x
      | None => Raise (KeyError k)
      end
  | _ => Raise TypeError
  end.

Fixpoint chars (s : string) : list pyval :=
  match s with
  | EmptyString => []
  | String c rest => VStr (String c EmptyString) :: chars rest
  end.

(** [for i in v]: a list yields its items, a string its characters and a
    dictionary its keys; nothing else is iterable. *)
Definition iter (v : pyval) : result (list pyval) :=
  match v with
  | VList l => Ok l
  | VStr s => Ok (chars s)
  | VDict d => Ok (VStr <$> (map_to_list d).*1)
  | _ => Raise TypeError
  end.

(** [v / n] in Python 2 for a non-zero integer [n]: floor division on
    integers (a boolean counts as 0 or 1), true division on floats. *)
Definition div_int (v : pyval) (n : Z) : result pyval :=
  match v with
  | VInt a => Ok (VInt (a / n))
  | VBool b => Ok (VInt ((if b then 1 else 0) / n))
  | VFloat q => Ok (VFloat (q / inject_Z n))
  | _ => Raise TypeError
  end.

(** ** Normalized domain types (libcloud.types, libcloud.base) *)

(** Modelled from the spec: [libcloud.types.NodeState] is not part of this
    module; the specification gives the lifecycle enum as
    PENDING, RUNNING, TERMINATED, UNKNOWN. *)
Inductive NodeState : Type := PENDING | RUNNING | TERMINATED | UNKNOWN.

(** The credentials held by the connection ([ConnectionUserAndKey]). *)
Record BlueboxConnection : Type := mkConnection {
  user_id : string;
  key : string
}.

(** The driver object; [self.connection.driver] is the driver itself. *)
Record BlueboxNodeDriver : Type := mkDriver {
  connection : BlueboxConnection
}.

(** Modelled from the spec: the constructors of [libcloud.base] are not part
    of this module.  A Normalized Node has id, name, lifecycle state, public
    and private IP lists, an extra bag and the owning driver. *)
Record Node : Type := mkNode {
  node_id : pyval;
  node_name : pyval;
  node_state : NodeState;
  public_ip : list pyval;
  private_ip : list pyval;
  extra : gmap string pyval;
  node_driver : BlueboxNodeDriver
}.

(** Modelled from the spec: a Normalized Size has the fields of a catalog
    entry (unique id, display name, RAM, disk, CPU count, hourly cost) and
    the owning driver. *)
Record NodeSize : Type := mkNodeSize {
  size_id : pyval;
  size_name : pyval;
  ram : pyval;
  disk : pyval;
  cpu : pyval;
  cost : pyval;
  size_driver : BlueboxNodeDriver
}.

(** Modelled from the spec: a Normalized Image has id and name. *)
Record NodeImage : Type := mkNodeImage {
  image_id : pyval;
  image_name : pyval;
  image_driver : BlueboxNodeDriver
}.

(** Modelled from the spec: a Location has id, region name and country. *)
Record NodeLocation : Type := mkNodeLocation {
  location_id : Z;
  location_name : string;
  location_country : string;
  location_driver : BlueboxNodeDriver
}.

(** Modelled from the spec: [NodeSize(driver=d, **kw)] takes exactly the
    catalog's field names as keyword arguments; a missing or an unexpected
    keyword is a [TypeError]. *)
Definition NodeSize_init (d : BlueboxNodeDriver) (kw : pyval)
  : result NodeSize :=
  match kw with
  | VDict m =>
      match m !! "id", m !! "name", m !! "ram", m !! "disk", m !! "cpu",
            m !! "cost" with
      | Some i, Some n, Some r, Some k, Some c, Some p =>
          if bool_decide (size m = 6%nat)
          then Ok (mkNodeSize i n r k c p d)
          else Raise TypeError
      | _, _, _, _, _, _ => Raise TypeError
      end
  | _ => Raise TypeError
  end.

(** ** Module-level names

    The module body is executed top to bottom when it is imported; a later
    assignment to a name replaces the earlier one, and the methods read the
    module's names when they are called, after the whole body has run. *)

Inductive binding : Type :=
  | BValue (v : pyval)
  | BStateMap (m : gmap string NodeState)
  | BImported
  | BClass.

Definition RAM_PER_CPU : Z := 2048.

Definition BLUEBOX_API_HOST : string := "boxpanel.blueboxgrp.com".

Definition instance_type (id name : string) (ram disk : Z) (cpu cost : pyval)
  : pyval :=
  VDict {[ "id" := VStr id; "name" := VStr name; "ram" := VInt ram;
           "disk" := VInt disk; "cpu" := cpu; "cost" := cost ]}.

(** The catalog of lines 35-68. *)
Definition instance_types_listed : gmap string pyval :=
  {[ "1gb" := instance_type "94fd37a7-2606-47f7-84d5-9000deda52ae"
                "Block 1GB Virtual Server" 1024 20 (VFloat 0.5) (VFloat 0.15);
     "2gb" := instance_type "b412f354-5056-4bf0-a42f-6ddd998aa092"
                "Block 2GB Virtual Server" 2048 25 (VInt 1) (VFloat 0.25);
     "4gb" := instance_type "0cd183d3-0287-4b1a-8288-b3ea8302ed58"
                "Block 4GB Virtual Server" 4096 50 (VInt 2) (VFloat 0.35);
     "8gb" := instance_type "b9b87a5b-2885-4a2e-b434-44a163ca6251"
                "Block 8GB Virtual Server" 8192 100 (VInt 4) (VFloat 0.45) ]}.

Definition NODE_STATE_MAP : gmap string NodeState :=
  {[ "queued" := PENDING;
     "building" := PENDING;
     "running" := RUNNING;
     "error" := TERMINATED;
     "unknown" := UNKNOWN ]}.

(** The statements of the module body that bind a name, in source order. *)
Definition module_body : list (string * binding) :=
  [ ("Provider", BImported); ("NodeState", BImported);
    ("InvalidCredsError", BImported); ("Node", BImported);
    ("Response", BImported); ("ConnectionUserAndKey", BImported);
    ("NodeDriver", BImported); ("NodeSize", BImported);
    ("NodeImage", BImported); ("NodeLocation", BImported);
    ("datetime", BImported); ("hashlib", BImported); ("base64", BImported);
    ("json", BImported);
    ("BLUEBOX_API_HOST", BValue (VStr BLUEBOX_API_HOST));
    ("BLUEBOX_INSTANCE_TYPES", BValue (VDict instance_types_listed));
    ("BlueboxResponse", BClass);
    ("BlueboxConnection", BClass);
    ("BLUEBOX_INSTANCE_TYPES", BValue (VDict ∅));
    ("RAM_PER_CPU", BValue (VInt RAM_PER_CPU));
    ("NODE_STATE_MAP", BStateMap NODE_STATE_MAP);
    ("BlueboxNodeDriver", BClass) ].

Definition exec_module (body : list (string * binding))
  : gmap string binding :=
  foldl (fun g '(name, b) => <[name := b]> g) ∅ body.

(** The names of the imported module. *)
Definition globals : gmap string binding := exec_module module_body.

(** Reading a name inside a method body.  None of the names the methods
    read is a builtin, so an unbound module name is a [NameError]. *)
Definition global (name : string) : result binding :=
  match globals !! name with
  | Some b => Ok b
  | None => Raise (NameError name)
  end.

Definition as_value (b : binding) : result pyval :=
  match b with
  | BValue v => Ok v
  | _ => Raise TypeError
  end.

(** [d.values()] *)
Definition values (v : pyval) : result (list pyval) :=
  match v with
  | VDict d => Ok (map_to_list d).*2
  | _ => Raise (AttributeError "values")
  end.

(** ** HTTP exchange *)

Record Request : Type := mkRequest {
  rq_path : string;
  rq_method : string;
  rq_data : option string;
  rq_headers : gmap string string
}.

(** What the transport hands back: status code, body, reason phrase. *)
Record HTTPResponse : Type := mkHTTPResponse {
  http_status : Z;
  http_body : string;
  http_reason : string
}.

(** A response object once constructed. *)
Record Response : Type := mkResponse {
  status : Z;
  body : string;
  error : string;
  object : pyval
}.

(** A call of the driver: the requests handed to the transport, in order,
    and the outcome. *)
Definition call (A : Type) : Type := list Request * result A.

#[global] Instance call_ret : MRet call := fun _ a => ([], Ok a).
#[global] Instance call_bind : MBind call := fun _ _ k c =>
  match c with
  | (sent, Ok a) => let '(sent', r) := k a in (sent ++ sent', r)
  | (sent, Raise e) => (sent, Raise e)
  end.

(** A step that sends nothing. *)
Definition quiet {A : Type} (r : result A) : call A := ([], r).

Definition sent {A : Type} (c : call A) : list Request := c.1.
Definition outcome {A : Type} (c : call A) : result A := c.2.

(** Keyword arguments of [create_node]: plain values, or a size object. *)
Inductive arg : Type :=
  | AVal (v : pyval)
  | ASize (s : NodeSize).

Definition kwarg (kwargs : gmap string arg) (k : string) : result arg :=
  match kwargs !! k with
  | Some a => Ok a
  | None => Raise (KeyError k)
  end.

(** [a.ram] *)
Definition attr_ram (a : arg) : result pyval :=
  match a with
  | ASize s => Ok (ram s)
  | AVal _ => Raise (AttributeError "ram")
  end.

Definition arg_eq_str (a : arg) (s : string) : bool :=
  match a with
  | AVal v => eq_str v s
  | ASize _ => false
  end.

Definition arg_truthy (a : arg) : bool :=
  match a with
  | AVal v => truthy v
  | ASize _ => true
  end.

Section Bluebox.

(** The standard library's [json.loads] ([None] stands for [ValueError]),
    [json.dumps] and [base64.b64encode]. *)
Variable json_loads : string -> option pyval.
Variable json_dumps : pyval -> result string.
Variable b64encode : string -> string.

(** [Response.success] of the base class, which is not part of this
    module: which status codes count as a success. *)
Variable success : Z -> bool.

(** The transport collaborator: one synchronous exchange. *)
Variable transport : Request -> HTTPResponse.

(** *** BlueboxResponse *)

Definition parse_body (self : HTTPResponse) : pyval :=
  match json_loads (http_body self) with
  | Some js => js
  | None => VStr (http_body self)
  end.

Definition parse_error (self : HTTPResponse) : result string :=
  if http_status self =? 401 then
    if String.eqb (http_body self) "" then
      Raise (InvalidCredsError
               (pretty (http_status self) +:+ ": " +:+ http_reason self))
    else
      Raise (InvalidCredsError (http_body self))
  else Ok (http_body self).

(** Modelled from the spec: the constructor of the base class [Response]
    is not part of this module.  The Response Interpreter decodes the body
    of a successful response with [parse_body]; for any other status it
    classifies the error with [parse_error], and what that returns is the
    payload. *)
Definition BlueboxResponse_init (r : HTTPResponse) : result Response :=
  if success (http_status r) then
    Ok (mkResponse (http_status r) (http_body r) (http_reason r)
          (parse_body r))
  else
    payload ← parse_error r;
    Ok (mkResponse (http_status r) (http_body r) (http_reason r)
          (VStr payload)).

(** *** BlueboxConnection *)

Definition add_default_headers (self : BlueboxConnection)
    (headers : gmap string string) : gmap string string :=
  let user_b64 := b64encode (user_id self +:+ ":" +:+ key self) in
  <["Authorization" := "Basic " +:+ user_b64]> headers.

(** Modelled from the spec: [request] of the base connection class is not
    part of this module.  Every outgoing request is decorated with
    [add_default_headers], handed to the transport, and the answer is
    routed through the response class. *)
Definition request (self : BlueboxConnection) (path : string)
    (data : option string) (headers : gmap string string)
    (method : string) : call Response :=
  let rq := mkRequest path method data (add_default_headers self headers) in
  ([rq], BlueboxResponse_init (transport rq)).

(** *** BlueboxNodeDriver *)

Definition _to_node (self : BlueboxNodeDriver) (vm : pyval) : result Node :=
  st ← getitem vm "status";
  let state := if eq_str st "running" then RUNNING else PENDING in
  id ← getitem vm "id";
  hostname ← getitem vm "hostname";
  ips ← getitem vm "ips";
  items ← iter ips;
  addresses ← comprehension (fun i => getitem i "address") items;
  storage ← getitem vm "storage";
  cpu ← getitem vm "cpu";
  Ok (mkNode id hostname state addresses []
        {[ "storage" := storage; "cpu" := cpu ]} self).

Definition _to_image (self : BlueboxNodeDriver) (image : pyval)
  : result NodeImage :=
  id ← getitem image "id";
  description ← getitem image "description";
  Ok (mkNodeImage id description self).

Definition list_nodes (self : BlueboxNodeDriver) : call (list Node) :=
  result ← request (connection self) "/api/blocks.json" None ∅ "GET";
  quiet (items ← iter (object result);
         comprehension (_to_node self) items).

Definition list_sizes (self : BlueboxNodeDriver) (location : pyval)
  : result (list NodeSize) :=
  types ← global "BLUEBOX_INSTANCE_TYPES";
  types ← as_value types;
  entries ← values types;
  comprehension (NodeSize_init self) entries.

Definition list_images (self : BlueboxNodeDriver) (location : pyval)
  : call (list NodeImage) :=
  result ← request (connection self) "/api/block_templates.json" None ∅
             "GET";
  quiet (items ← iter (object result);
         comprehension (_to_image self) items).

(** Lines 148-163 of [create_node]: the parameter set assembled from the
    keyword arguments. *)
Definition create_node_params (kwargs : gmap string arg)
  : result (gmap string arg) :=
  size ← kwarg kwargs "size";
  size_ram ← attr_ram size;
  cores ← div_int size_ram RAM_PER_CPU;
  product ← kwarg kwargs "product";
  template ← kwarg kwargs "template";
  password ← kwarg kwargs "password";
  ssh_key ← kwarg kwargs "ssh_key";
  username ← kwarg kwargs "username";
  let params : gmap string arg :=
    {[ "product" := product; "template" := template;
       "password" := password; "ssh_key" := ssh_key;
       "username" := username ]} in
  let params :=
    if arg_eq_str username "" then
      <["username" := AVal (VStr "deploy")]> params
    else params in
  hostname ← kwarg kwargs "hostname";
  let params :=
    if arg_truthy hostname then <["hostname" := hostname]> params
    else params in
  Ok params.

(** Line 165 serialises the module-level name [request], not [params]. *)
Definition create_node (self : BlueboxNodeDriver) (kwargs : gmap string arg)
  : call Node :=
  let headers : gmap string string :=
    {[ "Content-Type" := "application/json" ]} in
  params ← quiet (create_node_params kwargs);
  payload ← quiet (global "request");
  payload ← quiet (as_value payload);
  data ← quiet (json_dumps payload);
  result ← request (connection self) "/api/blocks.json" (Some data) headers
             "POST";
  quiet (_to_node self (object result)).

Definition destroy_node (self : BlueboxNodeDriver) (node : Node)
  : call bool :=
  result ← request (connection self) "/api/blocks/#{node.id}.json" None ∅
             "DELETE";
  mret (status result =? 200).

Definition list_locations (self : BlueboxNodeDriver) : list NodeLocation :=
  [mkNodeLocation 0 "Blue Box Seattle US" "US" self].

Definition reboot_node (self : BlueboxNodeDriver) (node : Node)
  : call bool :=
  result ← request (connection self) "/api/blocks/#{node.id}/reboot.json"
             None ∅ "PUT";
  node ← quiet (_to_node self (object result));
  mret (status result =? 200).

End Bluebox.

(** ** Instances of the library functions, for running the model *)

Module Sample.

(** [base64.b64encode] (RFC 4648, with padding). *)
Definition alphabet : string :=
  "ABCDEFGHIJKLMNOPQRSTUVWXYZabcdefghijklmnopqrstuvwxyz0123456789+/".

Definition digit (n : N) : ascii :=
  match String.get (N.to_nat (n mod 64)%N) alphabet with
  | Some c => c
  | None => "="%char
  end.

Fixpoint encode (bytes : list N) : string :=
  match bytes with
  | [] => ""
  | [a] =>
      let n := (a * 65536)%N in
      String (digit (n / 262144)) (String (digit (n / 4096)) "==")
  | [a; b] =>
      let n := (a * 65536 + b * 256)%N in
      String (digit (n / 262144))
        (String (digit (n / 4096)) (String (digit (n / 64)) "="))
  | a :: b :: c :: rest =>
      let n := (a * 65536 + b * 256 + c)%N in
      String (digit (n / 262144))
        (String (digit (n / 4096))
           (String (digit (n / 64)) (String (digit n) (encode rest))))
  end.

Definition b64encode (s : string) : string :=
  encode (N_of_ascii <$> list_ascii_of_string s).

(** A decoder that knows three documents and rejects everything else. *)
Definition json_loads (s : string) : option pyval :=
  if String.eqb s "[]" then Some (VList [])
  else if String.eqb s "{}" then Some (VDict ∅)
  else if String.eqb s "null" then Some VNone
  else None.

(** An encoder for the same three documents. *)
Definition json_dumps (v : pyval) : result string :=
  match v with
  | VList [] => Ok "[]"
  | VNone => Ok "null"
  | VDict d => if bool_decide (d = ∅) then Ok "{}" else Raise TypeError
  | _ => Raise TypeError
  end.

(** Modelled from the spec: a response is a success when its status is
    200. *)
Definition success (status : Z) : bool := status =? 200.

(** A transport that answers every request the same way. *)
Definition answer (status : Z) (body reason : string)
  : Request -> HTTPResponse :=
  fun _ => mkHTTPResponse status body reason.

Definition driver : BlueboxNodeDriver :=
  mkDriver (mkConnection "user" "pass").

(** A record of the node collection, as decoded. *)
Definition vm (id : Z) (status : string) : pyval :=
  VDict {[ "id" := VInt id; "hostname" := VStr "web1";
           "status" := VStr status;
           "ips" := VList [VDict {[ "address" := VStr "10.0.0.1" ]};
                           VDict {[ "address" := VStr "10.0.0.2" ]}];
           "storage" := VInt 20; "cpu" := VFloat 0.5 ]}.

Definition node (id : Z) : Node :=
  mkNode (VInt id) (VStr "web1") RUNNING [] [] ∅ driver.

(** A decoder that knows one document, the list [records]. *)
Definition decodes (document : string) (records : list pyval)
  : string -> option pyval :=
  fun body => if String.eqb body document then Some (VList records) else None.

Definition template (id : Z) (description : string) : pyval :=
  VDict {[ "id" := VInt id; "description" := VStr description ]}.

End Sample.

(** The wire shape of a node record: the fields id, hostname, status,
    storage and cpu, and a sequence [ips] of records with an address. *)
Definition has_key (v : pyval) (k : string) : bool :=
  match getitem v k with
  | Ok _ => true
  | Raise _ => false
  end.

Definition node_record (vm : pyval) : bool :=
  has_key vm "status" && has_key vm "id" && has_key vm "hostname"
  && match getitem vm "ips" with
     | Ok (VList ips) => forallb (fun i => has_key i "address") ips
     | _ => false
     end
  && has_key vm "storage" && has_key vm "cpu".

(** * Properties *)

Example b64encode_user_pass : Sample.b64encode "user:pass" = "dXNlcjpwYXNz".
Proof. reflexivity. Qed.

Example b64encode_padding :
  Sample.b64encode "a" = "YQ==" ∧ Sample.b64encode "ab" = "YWI=".
Proof. split; reflexivity. Qed.

(** ** The result monad and comprehensions *)

Lemma bind_Ok {A B : Type} (r : result A) (k : A -> result B) (b : B) :
  r ≫= k = Ok b -> exists a, r = Ok a /\ k a = Ok b.
Proof.
  destruct r as [a|e]; simpl; intros H; [eauto | discriminate].
Qed.

Lemma has_key_Ok (v : pyval) (k : string) :
  has_key v k = true -> exists x, getitem v k = Ok x.
Proof.
  unfold has_key. destruct (getitem v k) as [x|e]; [eauto | discriminate].
Qed.

Lemma comprehension_Ok {A B : Type} (f : A -> result B) (l : list A)
    (ys : list B) :
  comprehension f l = Ok ys <-> Forall2 (fun x y => f x = Ok y) l ys.
Proof.
  revert ys. induction l as [|x xs IH]; intros ys; simpl.
  - split.
    + intros [= <-]. constructor.
    + intros H. inversion H. reflexivity.
  - split.
    + intros H.
      apply bind_Ok in H as (y & Hy & H).
      apply bind_Ok in H as (zs & Hzs & H).
      injection H as <-. constructor; [exact Hy | by apply IH].
    + intros H. inversion H as [|? y ? zs Hy Hzs]; subst.
      rewrite Hy. simpl. apply IH in Hzs. rewrite Hzs. reflexivity.
Qed.

Lemma comprehension_total {A B : Type} (f : A -> result B) (l : list A) :
  Forall (fun x => exists y, f x = Ok y) l -> exists ys, comprehension f l = Ok ys.
Proof.
  induction 1 as [|x xs [y Hy] _ [ys Hys]]; simpl.
  - by exists [].
  - exists (y :: ys). rewrite Hy. simpl. rewrite Hys. reflexivity.
Qed.

(** ** Node translation *)

Lemma eq_str_decide (s t : string) :
  eq_str (VStr s) t = bool_decide (s = t).
Proof.
  simpl. destruct (String.eqb_spec s t) as [->|Hne].
  - by rewrite bool_decide_eq_true_2.
  - by rewrite bool_decide_eq_false_2.
Qed.

(** A record of the wire shape is translated. *)
Lemma to_node_accepts (self : BlueboxNodeDriver) (vm : pyval) :
  node_record vm = true -> exists n, _to_node self vm = Ok n.
Proof.
  unfold node_record. intros H.
  rewrite !andb_true_iff in H.
  destruct H as [[[[[Hst Hid] Hhost] Hips] Hsto] Hcpu].
  apply has_key_Ok in Hst as [st Hst], Hid as [id Hid],
    Hhost as [hostname Hhost], Hsto as [storage Hsto], Hcpu as [cpu Hcpu].
  destruct (getitem vm "ips") as [[| | | | |ips|]|] eqn:Hg; try discriminate.
  destruct (comprehension_total (fun i => getitem i "address") ips)
    as [addresses Haddr].
  { apply Forall_forall. intros i Hi.
    apply has_key_Ok. rewrite forallb_forall in Hips.
    apply Hips. by apply list_elem_of_In. }
  unfold _to_node. eexists.
  rewrite Hst, Hid, Hhost; simpl. rewrite Hg; simpl.
  rewrite Haddr; simpl. rewrite Hsto, Hcpu; simpl. reflexivity.
Qed.

(** What an accepted record is translated to. *)
Lemma to_node_Ok (self : BlueboxNodeDriver) (vm : pyval) (n : Node) :
  _to_node self vm = Ok n ->
  exists st id hostname ips items addresses storage cpu,
    getitem vm "status" = Ok st /\ getitem vm "id" = Ok id /\
    getitem vm "hostname" = Ok hostname /\ getitem vm "ips" = Ok ips /\
    iter ips = Ok items /\
    comprehension (fun i => getitem i "address") items = Ok addresses /\
    getitem vm "storage" = Ok storage /\ getitem vm "cpu" = Ok cpu /\
    n = mkNode id hostname (if eq_str st "running" then RUNNING else PENDING)
          addresses [] {[ "storage" := storage; "cpu" := cpu ]} self.
Proof.
  unfold _to_node. intros H.
  apply bind_Ok in H as (st & Hst & H).
  apply bind_Ok in H as (id & Hid & H).
  apply bind_Ok in H as (hostname & Hhost & H).
  apply bind_Ok in H as (ips & Hips & H).
  apply bind_Ok in H as (items & Hitems & H).
  apply bind_Ok in H as (addresses & Haddr & H).
  apply bind_Ok in H as (storage & Hstorage & H).
  apply bind_Ok in H as (cpu & Hcpu & H).
  injection H as <-.
  exists st, id, hostname, ips, items, addresses, storage, cpu.
  repeat split; assumption.
Qed.

(** C4: node translation gives the state RUNNING to a record whose status
    string is "running" and PENDING to a record with any other status
    string, documented by the provider or not; a record of the wire shape
    is always translated. *)
Theorem to_node_state (self : BlueboxNodeDriver) (vm : pyval) (s : string) :
  getitem vm "status" = Ok (VStr s) ->
  (node_record vm = true -> exists n, _to_node self vm = Ok n) /\
  (forall n, _to_node self vm = Ok n ->
     node_state n = if decide (s = "running") then RUNNING else PENDING).
Proof.
  intros Hs. split; [apply to_node_accepts |].
  intros n Hn.
  apply to_node_Ok in Hn
    as (st & ? & ? & ? & ? & ? & ? & ? & Hst & _ & _ & _ & _ & _ & _ & _ & ->).
  rewrite Hs in Hst. injection Hst as <-.
  cbn [node_state]. rewrite eq_str_decide.
  destruct (decide (s = "running")) as [Heq|Hne].
  - by rewrite bool_decide_eq_true_2.
  - by rewrite bool_decide_eq_false_2.
Qed.

Lemma to_node_state_witness :
  (exists n, _to_node Sample.driver (Sample.vm 7 "running") = Ok n
             /\ node_state n = RUNNING)
  /\ (exists n, _to_node Sample.driver (Sample.vm 7 "rebooting") = Ok n
                /\ node_state n = PENDING).
Proof.
  split.
  - destruct (to_node_state Sample.driver (Sample.vm 7 "running") "running")
      as [Hacc Hst]; [vm_compute; reflexivity |].
    destruct Hacc as [n Hn]; [vm_compute; reflexivity |].
    exists n. split; [exact Hn | exact (Hst n Hn)].
  - destruct (to_node_state Sample.driver (Sample.vm 7 "rebooting")
                "rebooting") as [Hacc Hst]; [vm_compute; reflexivity |].
    destruct Hacc as [n Hn]; [vm_compute; reflexivity |].
    exists n. split; [exact Hn | exact (Hst n Hn)].
Defined.

Example to_node_sample :
  _to_node Sample.driver (Sample.vm 7 "building")
  = Ok (mkNode (VInt 7) (VStr "web1") PENDING
          [VStr "10.0.0.1"; VStr "10.0.0.2"] []
          {[ "storage" := VInt 20; "cpu" := VFloat 0.5 ]} Sample.driver).
Proof. vm_compute. reflexivity. Qed.

(** A payload that is not a record (a raw body, say) is refused. *)
Example to_node_raw_body :
  _to_node Sample.driver (VStr "Service Unavailable") = Raise TypeError.
Proof. reflexivity. Qed.

(** C10: a translated record yields a node with no private address, with
    the addresses of the record's [ips] in their order as public addresses
    (for [ips] a list: as many public addresses as entries, the k-th being
    the [address] field of the k-th entry), and with an extra bag holding
    exactly the record's storage and cpu descriptors; a record of the wire
    shape is always translated. *)
Theorem to_node_fields (self : BlueboxNodeDriver) (vm : pyval) :
  (node_record vm = true -> exists n, _to_node self vm = Ok n) /\
  (forall n, _to_node self vm = Ok n ->
     private_ip n = [] /\
     (exists ips items,
        getitem vm "ips" = Ok ips /\ iter ips = Ok items /\
        Forall2 (fun i a => getitem i "address" = Ok a) items (public_ip n)) /\
     (forall ips : list pyval, getitem vm "ips" = Ok (VList ips) ->
        length (public_ip n) = length ips /\
        Forall2 (fun i a => getitem i "address" = Ok a) ips (public_ip n) /\
        forall (k : nat) i, ips !! k = Some i ->
          exists a, public_ip n !! k = Some a /\ getitem i "address" = Ok a) /\
     (exists storage cpu,
        getitem vm "storage" = Ok storage /\ getitem vm "cpu" = Ok cpu /\
        extra n = {[ "storage" := storage; "cpu" := cpu ]} /\
        dom (extra n) = {[ "storage"; "cpu" ]})).
Proof.
  split; [apply to_node_accepts |].
  intros n Hn.
  apply to_node_Ok in Hn
    as (st & id & hostname & ips & items & addresses & storage & cpu
        & _ & _ & _ & Hips & Hitems & Haddr & Hsto & Hcpu & ->).
  cbn [private_ip public_ip extra].
  apply comprehension_Ok in Haddr.
  split; [reflexivity |]. split; [| split].
  - exists ips, items.
    split; [assumption |]. split; assumption.
  - intros l Hl.
    rewrite Hl in Hips. injection Hips as <-.
    simpl in Hitems. injection Hitems as <-.
    split; [symmetry; by eapply Forall2_length |].
    split; [assumption |].
    intros k i Hk.
    destruct (Forall2_lookup_l _ _ _ _ _ Haddr Hk) as (a & Ha & Hia). eauto.
  - exists storage, cpu.
    split; [assumption |]. split; [assumption |]. split; [reflexivity |].
    rewrite dom_insert_L, dom_singleton_L. reflexivity.
Qed.

Lemma to_node_fields_witness :
  exists n, _to_node Sample.driver (Sample.vm 7 "running") = Ok n
            /\ private_ip n = []
            /\ public_ip n = [VStr "10.0.0.1"; VStr "10.0.0.2"]
            /\ dom (extra n) = {[ "storage"; "cpu" ]}.
Proof.
  destruct (to_node_fields Sample.driver (Sample.vm 7 "running"))
    as [Hacc Hfields].
  destruct Hacc as [n Hn]; [vm_compute; reflexivity |].
  destruct (Hfields n Hn)
    as (Hpriv & _ & Hpub & storage & cpu & _ & _ & _ & Hdom).
  destruct (Hpub [VDict {[ "address" := VStr "10.0.0.1" ]};
                  VDict {[ "address" := VStr "10.0.0.2" ]}])
    as (_ & Hall & _); [vm_compute; reflexivity |].
  apply comprehension_Ok in Hall.
  vm_compute in Hall. injection Hall as Hall.
  exists n.
  split; [assumption |]. split; [assumption |].
  split; [symmetry; exact Hall | assumption].
Defined.

(** With [ips] a list, the public addresses are the [address] fields one
    for one. *)
Lemma to_node_public_ip (self : BlueboxNodeDriver) (vm : pyval)
    (ips : list pyval) (n : Node) :
  getitem vm "ips" = Ok (VList ips) -> _to_node self vm = Ok n ->
  length (public_ip n) = length ips /\
  forall (k : nat) i, ips !! k = Some i ->
    exists a, public_ip n !! k = Some a /\ getitem i "address" = Ok a.
Proof.
  intros Hips Hn.
  apply to_node_Ok in Hn
    as (st & id & hostname & ips' & items & addresses & storage & cpu
        & _ & _ & _ & Hips' & Hiter & Hall & _ & _ & ->).
  rewrite Hips in Hips'. injection Hips' as <-.
  simpl in Hiter. injection Hiter as <-.
  apply comprehension_Ok in Hall. cbn [public_ip].
  split; [symmetry; by eapply Forall2_length |].
  intros k i Hk.
  destruct (Forall2_lookup_l _ _ _ _ _ Hall Hk) as (a & Ha & Hia). eauto.
Qed.

(** ** The state map *)

(** C5: the state map is defined on each of the five provider status
    strings and on nothing else: queued and building give PENDING, running
    gives RUNNING, error gives TERMINATED and unknown gives UNKNOWN; the
    module binds it once. *)
Theorem node_state_map_entries :
  NODE_STATE_MAP !! "queued" = Some PENDING /\
  NODE_STATE_MAP !! "building" = Some PENDING /\
  NODE_STATE_MAP !! "running" = Some RUNNING /\
  NODE_STATE_MAP !! "error" = Some TERMINATED /\
  NODE_STATE_MAP !! "unknown" = Some UNKNOWN /\
  dom NODE_STATE_MAP
    = {[ "queued"; "building"; "running"; "error"; "unknown" ]} /\
  global "NODE_STATE_MAP" = Ok (BStateMap NODE_STATE_MAP).
Proof.
  repeat apply conj; vm_compute; reflexivity.
Qed.

(** ** The response class *)

Example pretty_401 : pretty 401 = "401".
Proof. reflexivity. Qed.

(** C6: for a 401 response [parse_error] raises [InvalidCredsError]; the
    message is the body when there is one, and "401: " followed by the
    error text when the body is empty. *)
Theorem parse_error_401 (self : HTTPResponse) :
  http_status self = 401 ->
  (http_body self = "" ->
     parse_error self
     = Raise (InvalidCredsError ("401: " +:+ http_reason self))) /\
  (http_body self <> "" ->
     parse_error self = Raise (InvalidCredsError (http_body self))).
Proof.
  intros Hst. unfold parse_error. rewrite Hst. simpl (401 =? 401).
  split; intros Hbody.
  - rewrite Hbody. reflexivity.
  - destruct (String.eqb_spec (http_body self) ""); [contradiction | done].
Qed.

Lemma parse_error_401_witness :
  parse_error (mkHTTPResponse 401 "" "Unauthorized")
  = Raise (InvalidCredsError "401: Unauthorized")
  /\ parse_error (mkHTTPResponse 401 "Bad key" "Unauthorized")
     = Raise (InvalidCredsError "Bad key").
Proof.
  split.
  - apply (parse_error_401 (mkHTTPResponse 401 "" "Unauthorized")
             eq_refl); reflexivity.
  - apply (parse_error_401 (mkHTTPResponse 401 "Bad key" "Unauthorized")
             eq_refl). discriminate.
Defined.

(** Through the constructor: when 401 does not count as a success, no
    response object is built. *)
Lemma init_401 (json_loads : string -> option pyval) (success : Z -> bool)
    (r : HTTPResponse) :
  http_status r = 401 -> success 401 = false ->
  BlueboxResponse_init json_loads success r
  = Raise (InvalidCredsError
             (if String.eqb (http_body r) "" then "401: " +:+ http_reason r
              else http_body r)).
Proof.
  intros Hst Hsucc. unfold BlueboxResponse_init, parse_error.
  rewrite Hst, Hsucc. simpl (401 =? 401).
  by destruct (String.eqb (http_body r) "").
Qed.

Lemma parse_error_other (r : HTTPResponse) :
  http_status r <> 401 -> parse_error r = Ok (http_body r).
Proof.
  intros Hst. unfold parse_error.
  destruct (Z.eqb_spec (http_status r) 401); [contradiction | reflexivity].
Qed.

(** Any status but 401 yields a response object. *)
Lemma init_other (json_loads : string -> option pyval) (success : Z -> bool)
    (r : HTTPResponse) :
  http_status r <> 401 ->
  exists payload,
    BlueboxResponse_init json_loads success r
    = Ok (mkResponse (http_status r) (http_body r) (http_reason r) payload)
    /\ (payload = VStr (http_body r)
        \/ json_loads (http_body r) = Some payload).
Proof.
  intros Hst. unfold BlueboxResponse_init.
  destruct (success (http_status r)).
  - exists (parse_body json_loads r). split; [reflexivity |].
    unfold parse_body. destruct (json_loads (http_body r)); eauto.
  - rewrite parse_error_other by assumption. simpl. eauto.
Qed.

(** C8: a response whose status is neither 200 nor 401 is not an error:
    [parse_error] returns its body, the response object is built, and its
    payload is the body, raw when the body does not decode. *)
Theorem non_401_payload (json_loads : string -> option pyval)
    (success : Z -> bool) (r : HTTPResponse) :
  http_status r <> 200 -> http_status r <> 401 ->
  parse_error r = Ok (http_body r) /\
  (json_loads (http_body r) = None ->
     parse_body json_loads r = VStr (http_body r)) /\
  exists resp,
    BlueboxResponse_init json_loads success r = Ok resp /\
    status resp = http_status r /\ body resp = http_body r /\
    (object resp = VStr (http_body r)
     \/ json_loads (http_body r) = Some (object resp)) /\
    (json_loads (http_body r) = None -> object resp = VStr (http_body r)).
Proof.
  intros _ H401. split; [by apply parse_error_other |]. split.
  - intros Hnone. unfold parse_body. by rewrite Hnone.
  - destruct (init_other json_loads success r H401) as (payload & Hinit & Hp).
    eexists. split; [exact Hinit |]. simpl.
    repeat split; [exact Hp |].
    intros Hnone. destruct Hp as [Hp | Hp]; [exact Hp | congruence].
Qed.

Lemma non_401_payload_witness :
  exists resp,
    BlueboxResponse_init Sample.json_loads Sample.success
      (mkHTTPResponse 503 "Service Unavailable" "busy") = Ok resp
    /\ object resp = VStr "Service Unavailable".
Proof.
  destruct (non_401_payload Sample.json_loads Sample.success
              (mkHTTPResponse 503 "Service Unavailable" "busy"))
    as (_ & _ & resp & Hinit & _ & _ & _ & Hraw); [discriminate.. |].
  exists resp. split; [exact Hinit | exact (Hraw eq_refl)].
Defined.

(** ** The connection *)

Section Requests.

Context (json_loads : string -> option pyval)
        (b64encode : string -> string)
        (success : Z -> bool)
        (transport : Request -> HTTPResponse).

Abbreviation request_ := (request json_loads b64encode success transport).
Abbreviation destroy_node_ :=
  (destroy_node json_loads b64encode success transport).
Abbreviation reboot_node_ := (reboot_node json_loads b64encode success transport).
Abbreviation list_nodes_ := (list_nodes json_loads b64encode success transport).
Abbreviation list_images_ := (list_images json_loads b64encode success transport).

Lemma sent_bind_quiet {A B : Type} (c : call A) (k : A -> result B) :
  sent (c ≫= fun a => quiet (k a)) = sent c.
Proof.
  destruct c as [rqs [a|e]]; unfold sent; simpl; [|reflexivity].
  apply app_nil_r.
Qed.

Lemma outcome_bind_quiet {A B : Type} (c : call A) (k : A -> result B) :
  outcome (c ≫= fun a => quiet (k a)) = outcome c ≫= k.
Proof. destruct c as [rqs [a|e]]; reflexivity. Qed.

Lemma request_sent (self : BlueboxConnection) (path : string)
    (data : option string) (headers : gmap string string)
    (method : string) :
  sent (request_ self path data headers method)
  = [mkRequest path method data (add_default_headers b64encode self headers)].
Proof. reflexivity. Qed.

Lemma request_outcome (self : BlueboxConnection) (path : string)
    (data : option string) (headers : gmap string string)
    (method : string) :
  outcome (request_ self path data headers method)
  = BlueboxResponse_init json_loads success
      (transport
         (mkRequest path method data
            (add_default_headers b64encode self headers))).
Proof. reflexivity. Qed.

Lemma destroy_node_unfold (self : BlueboxNodeDriver) (node : Node) :
  destroy_node_ self node
  = request_ (connection self) "/api/blocks/#{node.id}.json" None ∅ "DELETE"
    ≫= fun result => quiet (Ok (status result =? 200)).
Proof. reflexivity. Qed.

Lemma reboot_node_unfold (self : BlueboxNodeDriver) (node : Node) :
  reboot_node_ self node
  = request_ (connection self) "/api/blocks/#{node.id}/reboot.json" None ∅
      "PUT"
    ≫= fun result =>
         quiet (_to_node self (object result)
                ≫= fun _ => Ok (status result =? 200)).
Proof.
  unfold reboot_node.
  destruct (request _ _ _ _ _ _ _ _ _) as [rqs [resp|e]]; [|reflexivity].
  simpl. destruct (_to_node self (object resp)); reflexivity.
Qed.

Lemma list_nodes_sent (self : BlueboxNodeDriver) :
  sent (list_nodes_ self)
  = [mkRequest "/api/blocks.json" "GET" None
       (add_default_headers b64encode (connection self) ∅)].
Proof. unfold list_nodes. rewrite sent_bind_quiet. apply request_sent. Qed.

Lemma list_images_sent (self : BlueboxNodeDriver) (location : pyval) :
  sent (list_images_ self location)
  = [mkRequest "/api/block_templates.json" "GET" None
       (add_default_headers b64encode (connection self) ∅)].
Proof. unfold list_images. rewrite sent_bind_quiet. apply request_sent. Qed.

End Requests.

(** C9: [add_default_headers] sets the Authorization header to "Basic "
    followed by the base64 encoding of identity, a colon and the secret
    key, whatever the caller put there; so every request that goes out,
    whatever its method and path, carries that header. *)
Theorem authorization_header (json_loads : string -> option pyval)
    (b64encode : string -> string) (success : Z -> bool)
    (transport : Request -> HTTPResponse) (self : BlueboxConnection) :
  (forall headers,
     add_default_headers b64encode self headers !! "Authorization"
     = Some ("Basic " +:+ b64encode (user_id self +:+ ":" +:+ key self))) /\
  (forall headers name,
     name <> "Authorization" ->
     add_default_headers b64encode self headers !! name = headers !! name) /\
  (forall path data headers method,
     exists rq,
       sent (request json_loads b64encode success transport self path data
               headers method) = [rq] /\
       rq_path rq = path /\ rq_method rq = method /\ rq_data rq = data /\
       rq_headers rq !! "Authorization"
       = Some ("Basic " +:+ b64encode (user_id self +:+ ":" +:+ key self))).
Proof.
  split; [|split].
  - intros headers. unfold add_default_headers. apply lookup_insert_eq.
  - intros headers name Hne. unfold add_default_headers.
    by apply lookup_insert_ne.
  - intros path data headers method. eexists.
    split; [apply request_sent |]. simpl.
    repeat split. apply lookup_insert_eq.
Qed.

Lemma authorization_header_witness :
  add_default_headers Sample.b64encode (mkConnection "user" "pass")
    {[ "Authorization" := "Bearer abc"; "Accept" := "text/plain" ]}
  !! "Accept" = Some "text/plain".
Proof.
  destruct (authorization_header Sample.json_loads Sample.b64encode
              Sample.success (Sample.answer 200 "[]" "OK")
              (mkConnection "user" "pass")) as (_ & Hother & _).
  rewrite Hother; [vm_compute; reflexivity | discriminate].
Defined.

Example authorization_overwritten :
  add_default_headers Sample.b64encode (mkConnection "user" "pass")
    {[ "Authorization" := "Bearer abc" ]}
  = {[ "Authorization" := "Basic dXNlcjpwYXNz" ]}.
Proof. vm_compute. reflexivity. Qed.

(** ** Destroying and rebooting a node *)

(** C7 as stated fails for a 401 answer: with 200 as the only success
    status, [destroy_node] raises [InvalidCredsError] instead of returning
    false. *)
Lemma destroy_node_401_raises :
  destroy_node Sample.json_loads Sample.b64encode Sample.success
    (Sample.answer 401 "" "Unauthorized") Sample.driver (Sample.node 7)
  = ([mkRequest "/api/blocks/#{node.id}.json" "DELETE" None
        {[ "Authorization" := "Basic dXNlcjpwYXNz" ]}],
     Raise (InvalidCredsError "401: Unauthorized")).
Proof. vm_compute. reflexivity. Qed.

(** C7, amended: [destroy_node] returns true when the status of the answer
    is 200 and false, without raising, for every other status except 401;
    a 401 answer, when 401 is not a success status, makes it raise
    [InvalidCredsError]. *)
Theorem destroy_node_status (json_loads : string -> option pyval)
    (b64encode : string -> string) (success : Z -> bool)
    (transport : Request -> HTTPResponse) (self : BlueboxNodeDriver)
    (node : Node) (answer : HTTPResponse) :
  transport (mkRequest "/api/blocks/#{node.id}.json" "DELETE" None
               (add_default_headers b64encode (connection self) ∅))
  = answer ->
  (http_status answer = 200 ->
     outcome (destroy_node json_loads b64encode success transport self node)
     = Ok true) /\
  (http_status answer <> 200 -> http_status answer <> 401 ->
     outcome (destroy_node json_loads b64encode success transport self node)
     = Ok false) /\
  (http_status answer = 401 -> success 401 = false ->
     outcome (destroy_node json_loads b64encode success transport self node)
     = Raise (InvalidCredsError
                (if String.eqb (http_body answer) ""
                 then "401: " +:+ http_reason answer
                 else http_body answer))).
Proof.
  intros Hanswer.
  rewrite destroy_node_unfold, outcome_bind_quiet, request_outcome, Hanswer.
  repeat apply conj.
  - intros H200.
    destruct (init_other json_loads success answer) as (p & -> & _); [lia |].
    simpl. by rewrite H200.
  - intros H200 H401.
    destruct (init_other json_loads success answer) as (p & -> & _); [done |].
    simpl. f_equal. by apply Z.eqb_neq.
  - intros H401 Hsucc. by rewrite init_401.
Qed.

Lemma destroy_node_status_witness :
  outcome (destroy_node Sample.json_loads Sample.b64encode Sample.success
             (Sample.answer 200 "[]" "OK") Sample.driver (Sample.node 7))
  = Ok true
  /\ outcome (destroy_node Sample.json_loads Sample.b64encode Sample.success
                (Sample.answer 404 "no such block" "Not Found") Sample.driver
                (Sample.node 7))
     = Ok false.
Proof.
  split.
  - apply (destroy_node_status Sample.json_loads Sample.b64encode
             Sample.success (Sample.answer 200 "[]" "OK") Sample.driver
             (Sample.node 7) _ eq_refl). reflexivity.
  - apply (destroy_node_status Sample.json_loads Sample.b64encode
             Sample.success (Sample.answer 404 "no such block" "Not Found")
             Sample.driver (Sample.node 7) _ eq_refl); discriminate.
Defined.

(** C2: [destroy_node] sends one DELETE and [reboot_node] one PUT, but the
    path is the string literal of the source, in which ["#{node.id}"] is not
    replaced by anything: the request does not depend on the node. *)
Theorem node_request_paths (json_loads : string -> option pyval)
    (b64encode : string -> string) (success : Z -> bool)
    (transport : Request -> HTTPResponse) (self : BlueboxNodeDriver)
    (node node' : Node) :
  sent (destroy_node json_loads b64encode success transport self node)
  = [mkRequest "/api/blocks/#{node.id}.json" "DELETE" None
       (add_default_headers b64encode (connection self) ∅)] /\
  sent (reboot_node json_loads b64encode success transport self node)
  = [mkRequest "/api/blocks/#{node.id}/reboot.json" "PUT" None
       (add_default_headers b64encode (connection self) ∅)] /\
  destroy_node json_loads b64encode success transport self node
  = destroy_node json_loads b64encode success transport self node' /\
  reboot_node json_loads b64encode success transport self node
  = reboot_node json_loads b64encode success transport self node'.
Proof.
  repeat apply conj; try reflexivity.
  - rewrite destroy_node_unfold, sent_bind_quiet. apply request_sent.
  - rewrite reboot_node_unfold, sent_bind_quiet. apply request_sent.
Qed.

Example destroy_node_two_ids :
  rq_path <$> sent (destroy_node Sample.json_loads Sample.b64encode
                      Sample.success (Sample.answer 200 "[]" "OK")
                      Sample.driver (Sample.node 1))
  = ["/api/blocks/#{node.id}.json"]
  /\ rq_path <$> sent (destroy_node Sample.json_loads Sample.b64encode
                         Sample.success (Sample.answer 200 "[]" "OK")
                         Sample.driver (Sample.node 2))
     = ["/api/blocks/#{node.id}.json"].
Proof. split; reflexivity. Qed.

(** ** The size catalog *)

Lemma instance_types_rebound :
  global "BLUEBOX_INSTANCE_TYPES" = Ok (BValue (VDict ∅)).
Proof. vm_compute. reflexivity. Qed.

(** Without the assignment of line 113 the name would hold the catalog. *)
Lemma instance_types_listed_first :
  exec_module (take 16 module_body) !! "BLUEBOX_INSTANCE_TYPES"
  = Some (BValue (VDict instance_types_listed)).
Proof. vm_compute. reflexivity. Qed.

(** On the listed catalog the comprehension of [list_sizes] yields one size
    per key, with the fields of the entry. *)
Lemma listed_sizes (self : BlueboxNodeDriver) :
  size instance_types_listed = 4%nat /\
  exists sizes,
    (entries ← values (VDict instance_types_listed);
     comprehension (NodeSize_init self) entries) = Ok sizes /\
    sizes ≡ₚ
      [ mkNodeSize (VStr "94fd37a7-2606-47f7-84d5-9000deda52ae")
          (VStr "Block 1GB Virtual Server") (VInt 1024) (VInt 20)
          (VFloat 0.5) (VFloat 0.15) self;
        mkNodeSize (VStr "b412f354-5056-4bf0-a42f-6ddd998aa092")
          (VStr "Block 2GB Virtual Server") (VInt 2048) (VInt 25)
          (VInt 1) (VFloat 0.25) self;
        mkNodeSize (VStr "0cd183d3-0287-4b1a-8288-b3ea8302ed58")
          (VStr "Block 4GB Virtual Server") (VInt 4096) (VInt 50)
          (VInt 2) (VFloat 0.35) self;
        mkNodeSize (VStr "b9b87a5b-2885-4a2e-b434-44a163ca6251")
          (VStr "Block 8GB Virtual Server") (VInt 8192) (VInt 100)
          (VInt 4) (VFloat 0.45) self ].
Proof.
  split; [vm_compute; reflexivity |].
  eexists. split; [vm_compute; reflexivity | reflexivity].
Qed.

(** C1: the catalog of lines 35-68 has four keys, but [list_sizes] reads
    the name after line 113 has rebound it to the empty dictionary: for
    every location argument it returns the empty list. *)
Theorem list_sizes_empty (self : BlueboxNodeDriver) (location : pyval) :
  size instance_types_listed = 4%nat /\ list_sizes self location = Ok [].
Proof.
  split; [vm_compute; reflexivity |].
  unfold list_sizes. rewrite instance_types_rebound. reflexivity.
Qed.

(** ** Creating a node *)

Lemma request_unbound : global "request" = Raise (NameError "request").
Proof. vm_compute. reflexivity. Qed.

(** The parameter set that lines 151-163 assemble holds "deploy" for an
    empty username and the given username otherwise. *)
Lemma create_node_params_username (kwargs params : gmap string arg) :
  create_node_params kwargs = Ok params ->
  exists username,
    kwargs !! "username" = Some username /\
    params !! "username"
    = Some (if arg_eq_str username "" then AVal (VStr "deploy")
            else username).
Proof.
  unfold create_node_params, kwarg. intros H.
  repeat match type of H with
         | _ ≫= _ = Ok _ => apply bind_Ok in H as (? & ? & H)
         end.
  destruct (kwargs !! "username") as [username|] eqn:Hu; [|discriminate].
  exists username. split; [reflexivity |].
  match goal with Hx : Ok username = Ok _ |- _ => injection Hx as <- end.
  injection H as <-.
  repeat match goal with |- context [if ?b then _ else _] => destruct b end;
    by simplify_map_eq.
Qed.

(** C3: [create_node] transmits no username at all: after assembling the
    parameters it reads the name [request], which the module never binds,
    so every call raises before anything is handed to the transport. *)
Theorem create_node_sends_nothing (json_loads : string -> option pyval)
    (json_dumps : pyval -> result string) (b64encode : string -> string)
    (success : Z -> bool) (transport : Request -> HTTPResponse)
    (self : BlueboxNodeDriver) (kwargs : gmap string arg) :
  create_node json_loads json_dumps b64encode success transport self kwargs
  = ([], match create_node_params kwargs with
         | Ok _ => Raise (NameError "request")
         | Raise e => Raise e
         end).
Proof.
  unfold create_node.
  destruct (create_node_params kwargs) as [params|e]; [|reflexivity].
  unfold quiet, mbind, call_bind. rewrite request_unbound. reflexivity.
Qed.

Example create_node_empty_username :
  let kwargs : gmap string arg :=
    {[ "size" := ASize (mkNodeSize (VStr "94fd37a7") (VStr "Block 1GB")
                          (VInt 1024) (VInt 20) (VFloat 0.5) (VFloat 0.15)
                          Sample.driver);
       "product" := AVal (VStr "94fd37a7");
       "template" := AVal (VStr "c66b8145");
       "password" := AVal (VStr "secret");
       "ssh_key" := AVal (VStr "ssh-rsa AAAA");
       "username" := AVal (VStr "");
       "hostname" := AVal (VStr "") ]} in
  (params ← create_node_params kwargs; Ok (params !! "username"))
  = Ok (Some (AVal (VStr "deploy")))
  /\ create_node Sample.json_loads Sample.json_dumps Sample.b64encode
       Sample.success (Sample.answer 200 "{}" "OK") Sample.driver kwargs
     = ([], Raise (NameError "request")).
Proof. split; vm_compute; reflexivity. Qed.

(** ** Listing and rebooting *)

(** [list_locations] returns the one fixed location, with id 0. *)
Theorem list_locations_single (self : BlueboxNodeDriver) :
  exists l,
    list_locations self = [l] /\ location_id l = 0 /\
    location_name l = "Blue Box Seattle US" /\ location_country l = "US".
Proof. eexists. repeat split. Qed.

(** [list_nodes] sends one GET for the node collection; when the answer
    decodes to a list of records, it yields the translation of each record,
    in the provider's order, or the first failure of a translation. *)
Theorem list_nodes_translates (json_loads : string -> option pyval)
    (b64encode : string -> string) (success : Z -> bool)
    (transport : Request -> HTTPResponse) (self : BlueboxNodeDriver)
    (answer : HTTPResponse) (records : list pyval) :
  transport (mkRequest "/api/blocks.json" "GET" None
               (add_default_headers b64encode (connection self) ∅))
  = answer ->
  success (http_status answer) = true ->
  json_loads (http_body answer) = Some (VList records) ->
  outcome (list_nodes json_loads b64encode success transport self)
  = comprehension (_to_node self) records /\
  forall nodes,
    outcome (list_nodes json_loads b64encode success transport self)
    = Ok nodes ->
    Forall2 (fun vm n => _to_node self vm = Ok n) records nodes.
Proof.
  intros Hanswer Hsucc Hbody.
  assert (outcome (list_nodes json_loads b64encode success transport self)
          = comprehension (_to_node self) records) as Hout.
  { unfold list_nodes.
    rewrite outcome_bind_quiet, request_outcome, Hanswer.
    unfold BlueboxResponse_init, parse_body. rewrite Hsucc, Hbody.
    reflexivity. }
  split; [exact Hout |].
  intros nodes Hnodes. rewrite Hout in Hnodes. by apply comprehension_Ok.
Qed.

Lemma list_nodes_translates_witness :
  outcome (list_nodes
             (Sample.decodes "[block 7, block 8]"
                [Sample.vm 7 "running"; Sample.vm 8 "building"])
             Sample.b64encode Sample.success
             (Sample.answer 200 "[block 7, block 8]" "OK") Sample.driver)
  = Ok [mkNode (VInt 7) (VStr "web1") RUNNING
          [VStr "10.0.0.1"; VStr "10.0.0.2"] []
          {[ "storage" := VInt 20; "cpu" := VFloat 0.5 ]} Sample.driver;
        mkNode (VInt 8) (VStr "web1") PENDING
          [VStr "10.0.0.1"; VStr "10.0.0.2"] []
          {[ "storage" := VInt 20; "cpu" := VFloat 0.5 ]} Sample.driver].
Proof.
  destruct (list_nodes_translates
              (Sample.decodes "[block 7, block 8]"
                 [Sample.vm 7 "running"; Sample.vm 8 "building"])
              Sample.b64encode Sample.success
              (Sample.answer 200 "[block 7, block 8]" "OK") Sample.driver
              _ [Sample.vm 7 "running"; Sample.vm 8 "building"]
              eq_refl eq_refl eq_refl) as [Hout _].
  rewrite Hout. vm_compute. reflexivity.
Defined.

(** [reboot_node] translates the payload of the answer before it looks at
    the status: for a status other than 401 it returns whether the status
    is 200 when the payload is translated, and raises what the translation
    raises otherwise. *)
Theorem reboot_node_status (json_loads : string -> option pyval)
    (b64encode : string -> string) (success : Z -> bool)
    (transport : Request -> HTTPResponse) (self : BlueboxNodeDriver)
    (node : Node) (answer : HTTPResponse) :
  transport (mkRequest "/api/blocks/#{node.id}/reboot.json" "PUT" None
               (add_default_headers b64encode (connection self) ∅))
  = answer ->
  http_status answer <> 401 ->
  exists payload,
    BlueboxResponse_init json_loads success answer
    = Ok (mkResponse (http_status answer) (http_body answer)
            (http_reason answer) payload) /\
    outcome (reboot_node json_loads b64encode success transport self node)
    = match _to_node self payload with
      | Ok _ => Ok (http_status answer =? 200)
      | Raise e => Raise e
      end.
Proof.
  intros Hanswer H401.
  destruct (init_other json_loads success answer H401)
    as (payload & Hinit & _).
  exists payload. split; [exact Hinit |].
  rewrite reboot_node_unfold, outcome_bind_quiet, request_outcome, Hanswer,
    Hinit.
  simpl. by destruct (_to_node self payload).
Qed.

Lemma reboot_node_status_witness :
  outcome (reboot_node Sample.json_loads Sample.b64encode Sample.success
             (Sample.answer 503 "Service Unavailable" "busy") Sample.driver
             (Sample.node 7))
  = Raise TypeError.
Proof.
  destruct (reboot_node_status Sample.json_loads Sample.b64encode
              Sample.success (Sample.answer 503 "Service Unavailable" "busy")
              Sample.driver (Sample.node 7) _ eq_refl)
    as (payload & Hinit & Hout); [discriminate |].
  injection Hinit as <-. exact Hout.
Defined.

(** ** Failures of translation *)

#[local] Set Warnings "-clear-no-such-hyp".

Lemma getitem_Raise (v : pyval) (k : string) (e : exn) :
  getitem v k = Raise e -> e = TypeError \/ e = KeyError k.
Proof.
  destruct v as [| | | | | |d]; simpl; try (intros [= <-]; by left).
  destruct (d !! k); [discriminate | intros [= <-]; by right].
Qed.

Lemma comprehension_Raise {A B : Type} (f : A -> result B) (l : list A)
    (e : exn) :
  comprehension f l = Raise e -> exists x, x ∈ l /\ f x = Raise e.
Proof.
  induction l as [|x xs IH]; simpl; [discriminate |].
  destruct (f x) as [y|e'] eqn:Hx; simpl.
  - destruct (comprehension f xs) as [ys|e'']; simpl; [discriminate |].
    intros [= ->]. destruct IH as (x' & Hin & Hx'); [reflexivity |].
    exists x'. split; [by apply list_elem_of_further | exact Hx'].
  - intros [= ->]. exists x. split; [apply list_elem_of_here | exact Hx].
Qed.

Lemma bind_Raise {A B : Type} (r : result A) (k : A -> result B) (e : exn) :
  r ≫= k = Raise e -> r = Raise e \/ exists a, r = Ok a /\ k a = Raise e.
Proof.
  destruct r as [a|e']; simpl; intros H; [eauto | left; congruence].
Qed.

Ltac key_error :=
  right; eexists; split; [|reflexivity]; set_solver.

Ltac field_error H :=
  apply getitem_Raise in H as [->| ->]; [by left | key_error].

(** A node record that cannot be translated raises [TypeError] or a
    [KeyError] on one of the fields the translation reads, and nothing
    else; the status is read first. *)
Theorem to_node_errors (self : BlueboxNodeDriver) (vm : pyval) (e : exn) :
  _to_node self vm = Raise e ->
  (e = TypeError \/
   exists k, k ∈ ["status"; "id"; "hostname"; "ips"; "address"; "storage";
                  "cpu"] /\ e = KeyError k) /\
  (forall d, vm = VDict d -> d !! "status" = None -> e = KeyError "status").
Proof.
  intros H. split.
  - unfold _to_node in H.
    apply bind_Raise in H as [H | (st & _ & H)]; [field_error H |].
    apply bind_Raise in H as [H | (id & _ & H)]; [field_error H |].
    apply bind_Raise in H as [H | (hostname & _ & H)]; [field_error H |].
    apply bind_Raise in H as [H | (ips & _ & H)]; [field_error H |].
    apply bind_Raise in H as [H | (items & _ & H)].
    { destruct ips; simpl in H; try discriminate; injection H as <-;
        by left. }
    apply bind_Raise in H as [H | (addresses & _ & H)].
    { apply comprehension_Raise in H as (x & _ & H). field_error H. }
    apply bind_Raise in H as [H | (storage & _ & H)]; [field_error H |].
    apply bind_Raise in H as [H | (cpu & _ & H)]; [field_error H |].
    discriminate.
  - intros d -> Hd. unfold _to_node in H. simpl in H. rewrite Hd in H.
    simpl in H. by injection H as <-.
Qed.

Lemma to_node_errors_witness :
  KeyError "status" = TypeError \/
  exists k, k ∈ ["status"; "id"; "hostname"; "ips"; "address"; "storage";
                 "cpu"] /\ KeyError "status" = KeyError k.
Proof.
  exact (proj1 (to_node_errors Sample.driver (VDict ∅) (KeyError "status")
                  eq_refl)).
Defined.

(** A translated node keeps the record's id as its id and the record's
    hostname as its name, and belongs to the translating driver. *)
Theorem to_node_identity (self : BlueboxNodeDriver) (vm : pyval) (n : Node) :
  _to_node self vm = Ok n ->
  getitem vm "id" = Ok (node_id n) /\
  getitem vm "hostname" = Ok (node_name n) /\
  node_driver n = self.
Proof.
  intros H.
  apply to_node_Ok in H
    as (st & id & hostname & ips & items & addresses & storage & cpu
        & _ & Hid & Hhost & _ & _ & _ & _ & _ & ->).
  by repeat split.
Qed.

Lemma to_node_identity_witness :
  exists n, _to_node Sample.driver (Sample.vm 7 "running") = Ok n
            /\ getitem (Sample.vm 7 "running") "id" = Ok (node_id n).
Proof.
  destruct (to_node_accepts Sample.driver (Sample.vm 7 "running"))
    as [n Hn]; [vm_compute; reflexivity |].
  exists n. split; [exact Hn |].
  exact (proj1 (to_node_identity Sample.driver _ n Hn)).
Defined.

(** Node translation does not consult the state map: its state agrees with
    [NODE_STATE_MAP] exactly for the statuses queued, building and running.
    For error and unknown the map says TERMINATED and UNKNOWN where the
    translation says PENDING, and for any other status the map has no
    entry. *)
Theorem to_node_state_vs_map (self : BlueboxNodeDriver) (vm : pyval)
    (s : string) (n : Node) :
  getitem vm "status" = Ok (VStr s) -> _to_node self vm = Ok n ->
  (NODE_STATE_MAP !! s = Some (node_state n)
   <-> s = "queued" \/ s = "building" \/ s = "running").
Proof.
  intros Hs Hn.
  apply to_node_Ok in Hn
    as (st & ? & ? & ? & ? & ? & ? & ? & Hst & _ & _ & _ & _ & _ & _ & _ & ->).
  rewrite Hs in Hst. injection Hst as <-.
  cbn [node_state]. rewrite eq_str_decide.
  unfold NODE_STATE_MAP.
  destruct (decide (s = "queued")) as [->|?];
    [split; [auto | intros _; vm_compute; reflexivity] |].
  destruct (decide (s = "building")) as [->|?];
    [split; [auto | intros _; vm_compute; reflexivity] |].
  destruct (decide (s = "running")) as [->|?];
    [split; [auto | intros _; vm_compute; reflexivity] |].
  rewrite bool_decide_eq_false_2 by assumption.
  do 3 (rewrite lookup_insert_ne by congruence).
  destruct (decide (s = "error")) as [->|?].
  { rewrite lookup_insert_eq.
    split; [discriminate | intros [H|[H|H]]; discriminate H]. }
  rewrite lookup_insert_ne by congruence.
  destruct (decide (s = "unknown")) as [->|?].
  { rewrite lookup_singleton_eq.
    split; [discriminate | intros [H|[H|H]]; discriminate H]. }
  rewrite lookup_singleton_ne by congruence.
  split; [discriminate | intros [H|[H|H]]; contradiction].
Qed.

Lemma to_node_state_vs_map_witness :
  exists n, _to_node Sample.driver (Sample.vm 7 "error") = Ok n
            /\ (NODE_STATE_MAP !! "error" = Some (node_state n)
                <-> "error" = "queued" \/ "error" = "building"
                    \/ "error" = "running").
Proof.
  destruct (to_node_accepts Sample.driver (Sample.vm 7 "error"))
    as [n Hn]; [vm_compute; reflexivity |].
  exists n. split; [exact Hn |].
  exact (to_node_state_vs_map Sample.driver (Sample.vm 7 "error") "error" n
           eq_refl Hn).
Defined.

Example to_node_error_status :
  node_state <$> _to_node Sample.driver (Sample.vm 7 "error") = Ok PENDING
  /\ NODE_STATE_MAP !! "error" = Some TERMINATED.
Proof. split; vm_compute; reflexivity. Qed.

(** ** Images *)

(** [_to_image] yields an image exactly when the template is a dictionary
    with an id and a description, which become the image's id and name; it
    fails with [TypeError] or a [KeyError] on one of the two fields only. *)
Theorem to_image_iff (self : BlueboxNodeDriver) (image : pyval) :
  (forall img,
     _to_image self image = Ok img <->
     getitem image "id" = Ok (image_id img) /\
     getitem image "description" = Ok (image_name img) /\
     image_driver img = self) /\
  (forall e,
     _to_image self image = Raise e ->
     e = TypeError \/ e = KeyError "id" \/ e = KeyError "description").
Proof.
  split.
  - intros img. unfold _to_image. split.
    + intros H.
      apply bind_Ok in H as (id & Hid & H).
      apply bind_Ok in H as (description & Hdesc & H).
      injection H as <-. by repeat split.
    + intros (Hid & Hdesc & Hself). rewrite Hid; simpl.
      rewrite Hdesc; simpl. destruct img; simpl in *. by subst.
  - intros e H. unfold _to_image in H.
    apply bind_Raise in H as [H | (id & _ & H)].
    { apply getitem_Raise in H as [->| ->]; auto. }
    apply bind_Raise in H as [H | (description & _ & H)].
    { apply getitem_Raise in H as [->| ->]; auto. }
    discriminate.
Qed.

(** [list_images] ignores its location argument; when the answer for the
    template collection is a success whose body decodes to a list, it
    yields the translation of each template, in the provider's order, or
    the first failure of a translation. *)
Theorem list_images_translates (json_loads : string -> option pyval)
    (b64encode : string -> string) (success : Z -> bool)
    (transport : Request -> HTTPResponse) (self : BlueboxNodeDriver)
    (location : pyval) (answer : HTTPResponse) (templates : list pyval) :
  transport (mkRequest "/api/block_templates.json" "GET" None
               (add_default_headers b64encode (connection self) ∅))
  = answer ->
  success (http_status answer) = true ->
  json_loads (http_body answer) = Some (VList templates) ->
  outcome (list_images json_loads b64encode success transport self location)
  = comprehension (_to_image self) templates /\
  (forall images,
     outcome (list_images json_loads b64encode success transport self
                location) = Ok images ->
     Forall2 (fun t img => _to_image self t = Ok img) templates images) /\
  (forall location',
     list_images json_loads b64encode success transport self location'
     = list_images json_loads b64encode success transport self location).
Proof.
  intros Hanswer Hsucc Hbody.
  assert (outcome (list_images json_loads b64encode success transport self
                     location)
          = comprehension (_to_image self) templates) as Hout.
  { unfold list_images.
    rewrite outcome_bind_quiet, request_outcome, Hanswer.
    unfold BlueboxResponse_init, parse_body. rewrite Hsucc, Hbody.
    reflexivity. }
  split; [exact Hout |]. split; [| reflexivity].
  intros images Himages. rewrite Hout in Himages. by apply comprehension_Ok.
Qed.

Lemma list_images_translates_witness :
  outcome (list_images
             (Sample.decodes "[template 3, template 1]"
                [Sample.template 3 "Ubuntu"; Sample.template 1 "CentOS"])
             Sample.b64encode Sample.success
             (Sample.answer 200 "[template 3, template 1]" "OK")
             Sample.driver VNone)
  = Ok [mkNodeImage (VInt 3) (VStr "Ubuntu") Sample.driver;
        mkNodeImage (VInt 1) (VStr "CentOS") Sample.driver].
Proof.
  destruct (list_images_translates
              (Sample.decodes "[template 3, template 1]"
                 [Sample.template 3 "Ubuntu"; Sample.template 1 "CentOS"])
              Sample.b64encode Sample.success
              (Sample.answer 200 "[template 3, template 1]" "OK")
              Sample.driver VNone
              _ [Sample.template 3 "Ubuntu"; Sample.template 1 "CentOS"]
              eq_refl eq_refl eq_refl) as [Hout _].
  rewrite Hout. vm_compute. reflexivity.
Defined.

(** ** Answers that are not what a listing expects *)

(** A successful answer whose body does not decode is iterated as a
    string: [list_nodes] raises [TypeError] on its first character, and
    returns the empty list when the body is empty. *)
Theorem list_nodes_undecodable (json_loads : string -> option pyval)
    (b64encode : string -> string) (success : Z -> bool)
    (transport : Request -> HTTPResponse) (self : BlueboxNodeDriver)
    (answer : HTTPResponse) :
  transport (mkRequest "/api/blocks.json" "GET" None
               (add_default_headers b64encode (connection self) ∅))
  = answer ->
  success (http_status answer) = true ->
  json_loads (http_body answer) = None ->
  outcome (list_nodes json_loads b64encode success transport self)
  = if String.eqb (http_body answer) "" then Ok [] else Raise TypeError.
Proof.
  intros Hanswer Hsucc Hbody. unfold list_nodes.
  rewrite outcome_bind_quiet, request_outcome, Hanswer.
  unfold BlueboxResponse_init, parse_body. rewrite Hsucc, Hbody.
  cbn [mbind result_bind object iter].
  destruct (http_body answer) as [|c rest]; reflexivity.
Qed.

Lemma list_nodes_undecodable_witness :
  outcome (list_nodes Sample.json_loads Sample.b64encode Sample.success
             (Sample.answer 200 "" "OK") Sample.driver) = Ok []
  /\ outcome (list_nodes Sample.json_loads Sample.b64encode Sample.success
                (Sample.answer 200 "<html>" "OK") Sample.driver)
     = Raise TypeError.
Proof.
  split.
  - exact (list_nodes_undecodable Sample.json_loads Sample.b64encode
             Sample.success (Sample.answer 200 "" "OK") Sample.driver _
             eq_refl eq_refl eq_refl).
  - exact (list_nodes_undecodable Sample.json_loads Sample.b64encode
             Sample.success (Sample.answer 200 "<html>" "OK") Sample.driver
             _ eq_refl eq_refl eq_refl).
Defined.

(** When the provider answers 401 and 401 is not a success status, the
    listings and the reboot raise [InvalidCredsError] after their one
    request; no result is produced. *)
Theorem unauthorized_propagates (json_loads : string -> option pyval)
    (b64encode : string -> string) (success : Z -> bool)
    (transport : Request -> HTTPResponse) (self : BlueboxNodeDriver)
    (location : pyval) (node : Node) :
  (forall rq, http_status (transport rq) = 401) ->
  success 401 = false ->
  (exists msg,
     outcome (list_nodes json_loads b64encode success transport self)
     = Raise (InvalidCredsError msg)) /\
  (exists msg,
     outcome (list_images json_loads b64encode success transport self
                location) = Raise (InvalidCredsError msg)) /\
  (exists msg,
     outcome (reboot_node json_loads b64encode success transport self node)
     = Raise (InvalidCredsError msg)).
Proof.
  intros H401 Hsucc. repeat apply conj; eexists.
  - unfold list_nodes. rewrite outcome_bind_quiet, request_outcome.
    rewrite init_401 by auto. reflexivity.
  - unfold list_images. rewrite outcome_bind_quiet, request_outcome.
    rewrite init_401 by auto. reflexivity.
  - rewrite reboot_node_unfold, outcome_bind_quiet, request_outcome.
    rewrite init_401 by auto. reflexivity.
Qed.

Lemma unauthorized_propagates_witness :
  exists msg,
    outcome (list_nodes Sample.json_loads Sample.b64encode Sample.success
               (Sample.answer 401 "" "Unauthorized") Sample.driver)
    = Raise (InvalidCredsError msg).
Proof.
  exact (proj1 (unauthorized_propagates Sample.json_loads Sample.b64encode
                  Sample.success (Sample.answer 401 "" "Unauthorized")
                  Sample.driver VNone (Sample.node 7) (fun _ => eq_refl)
                  eq_refl)).
Defined.

(** ** What the listings send *)

(** Each listing hands exactly one request to the transport, whatever the
    answer turns out to be: a GET of the fixed path of its collection,
    carrying the Basic Authorization header of the driver's credentials. *)
Theorem listing_requests (json_loads : string -> option pyval)
    (b64encode : string -> string) (success : Z -> bool)
    (transport : Request -> HTTPResponse) (self : BlueboxNodeDriver)
    (location : pyval) :
  (exists rq,
     sent (list_nodes json_loads b64encode success transport self) = [rq] /\
     rq_path rq = "/api/blocks.json" /\ rq_method rq = "GET" /\
     rq_headers rq !! "Authorization"
     = Some ("Basic " +:+ b64encode (user_id (connection self) +:+ ":"
                                     +:+ key (connection self)))) /\
  (exists rq,
     sent (list_images json_loads b64encode success transport self location)
     = [rq] /\
     rq_path rq = "/api/block_templates.json" /\ rq_method rq = "GET" /\
     rq_headers rq !! "Authorization"
     = Some ("Basic " +:+ b64encode (user_id (connection self) +:+ ":"
                                     +:+ key (connection self)))).
Proof.
  rewrite list_nodes_sent, list_images_sent.
  split; eexists; (split; [reflexivity |]); cbn [rq_path rq_method rq_headers];
    (split; [reflexivity |]); (split; [reflexivity |]);
    unfold add_default_headers; apply lookup_insert_eq.
Qed.

(** Decorating twice is decorating once, the last credentials win, and no
    header other than Authorization is added or removed. *)
Theorem add_default_headers_idempotent (b64encode : string -> string)
    (self other : BlueboxConnection) (headers : gmap string string) :
  add_default_headers b64encode self
    (add_default_headers b64encode self headers)
  = add_default_headers b64encode self headers /\
  add_default_headers b64encode self
    (add_default_headers b64encode other headers)
  = add_default_headers b64encode self headers /\
  dom (add_default_headers b64encode self headers)
  = {[ "Authorization" ]} ∪ dom headers.
Proof.
  unfold add_default_headers. repeat apply conj.
  - apply insert_insert_eq.
  - apply insert_insert_eq.
  - apply dom_insert_L.
Qed.

(** ** The parameters of a creation request *)

Lemma kwarg_Ok (kwargs : gmap string arg) (k : string) (a : arg) :
  kwarg kwargs k = Ok a <-> kwargs !! k = Some a.
Proof. unfold kwarg. destruct (kwargs !! k); split; congruence. Qed.

Lemma kwarg_Raise (kwargs : gmap string arg) (k : string) (e : exn) :
  kwarg kwargs k = Raise e -> kwargs !! k = None /\ e = KeyError k.
Proof.
  unfold kwarg. destruct (kwargs !! k); [discriminate |].
  intros [= <-]. by split.
Qed.

(** When the parameters assemble, product, template, password and ssh_key
    are the keyword arguments unchanged; the hostname is included only when
    it is truthy (an empty hostname is left out); the size is read but never
    becomes a parameter, and no other parameter is added. *)
Theorem create_node_params_assembled (kwargs params : gmap string arg) :
  create_node_params kwargs = Ok params ->
  (is_Some (kwargs !! "product") /\ params !! "product" = kwargs !! "product") /\
  (is_Some (kwargs !! "template")
   /\ params !! "template" = kwargs !! "template") /\
  (is_Some (kwargs !! "password")
   /\ params !! "password" = kwargs !! "password") /\
  (is_Some (kwargs !! "ssh_key")
   /\ params !! "ssh_key" = kwargs !! "ssh_key") /\
  (exists hostname,
     kwargs !! "hostname" = Some hostname /\
     params !! "hostname"
     = if arg_truthy hostname then Some hostname else None) /\
  (exists size, kwargs !! "size" = Some (ASize size)) /\
  params !! "size" = None /\
  dom params ⊆ {[ "product"; "template"; "password"; "ssh_key"; "username";
                  "hostname" ]}.
Proof.
  unfold create_node_params. intros H.
  apply bind_Ok in H as (size & Hsize & H). apply kwarg_Ok in Hsize.
  apply bind_Ok in H as (size_ram & Hram & H).
  apply bind_Ok in H as (cores & _ & H).
  apply bind_Ok in H as (product & Hproduct & H). apply kwarg_Ok in Hproduct.
  apply bind_Ok in H as (template & Htemplate & H).
  apply kwarg_Ok in Htemplate.
  apply bind_Ok in H as (password & Hpassword & H).
  apply kwarg_Ok in Hpassword.
  apply bind_Ok in H as (ssh_key & Hssh & H). apply kwarg_Ok in Hssh.
  apply bind_Ok in H as (username & Huser & H). apply kwarg_Ok in Huser.
  apply bind_Ok in H as (hostname & Hhost & H). apply kwarg_Ok in Hhost.
  injection H as <-.
  rewrite Hproduct, Htemplate, Hpassword, Hssh.
  assert (exists s, size = ASize s) as [s ->]
    by (destruct size; [discriminate | eauto]).
  destruct (arg_eq_str username ""), (arg_truthy hostname) eqn:Htruthy;
    (repeat apply conj;
     [ eauto | by simplify_map_eq | eauto | by simplify_map_eq
     | eauto | by simplify_map_eq | eauto | by simplify_map_eq
     | exists hostname; rewrite ?Htruthy; split; [done | by simplify_map_eq]
     | eauto | by simplify_map_eq
     | rewrite ?dom_insert_L, dom_singleton_L; set_solver ]).
Qed.

Lemma create_node_params_assembled_witness :
  exists params,
    create_node_params
      {[ "size" := ASize (mkNodeSize (VStr "94fd37a7") (VStr "Block 1GB")
                            (VInt 1024) (VInt 20) (VFloat 0.5) (VFloat 0.15)
                            Sample.driver);
         "product" := AVal (VStr "94fd37a7");
         "template" := AVal (VStr "c66b8145");
         "password" := AVal (VStr "secret");
         "ssh_key" := AVal (VStr "ssh-rsa AAAA");
         "username" := AVal (VStr "root");
         "hostname" := AVal (VStr "") ]} = Ok params
    /\ params !! "size" = None.
Proof.
  match goal with
  | |- exists params, ?c = Ok params /\ _ =>
      destruct c as [params|e] eqn:H
  end.
  - exists params. split; [reflexivity |].
    eapply create_node_params_assembled. exact H.
  - vm_compute in H. discriminate H.
Defined.

(** The parameters fail to assemble only through a keyword that is absent
    (a [KeyError] naming it, hostname included), a size without a [ram]
    attribute, or a [ram] that cannot be divided. *)
Theorem create_node_params_errors (kwargs : gmap string arg) (e : exn) :
  create_node_params kwargs = Raise e ->
  e = TypeError \/ e = AttributeError "ram" \/
  exists k,
    k ∈ ["size"; "product"; "template"; "password"; "ssh_key"; "username";
         "hostname"] /\ kwargs !! k = None /\ e = KeyError k.
Proof.
  unfold create_node_params. intros H.
  apply bind_Raise in H as [H | (size & _ & H)].
  { apply kwarg_Raise in H as [Hk ->]. right; right. eexists.
    split; [|split; [exact Hk | reflexivity]]. set_solver. }
  apply bind_Raise in H as [H | (size_ram & _ & H)].
  { destruct size; simpl in H; [|discriminate]. injection H as <-. auto. }
  apply bind_Raise in H as [H | (cores & _ & H)].
  { destruct size_ram; simpl in H; try discriminate; injection H as <-;
      auto. }
  repeat (apply bind_Raise in H as [H | (? & _ & H)];
          [ apply kwarg_Raise in H as [Hk ->]; right; right; eexists;
            (split; [|split; [exact Hk | reflexivity]]); set_solver |]).
  discriminate.
Qed.

Lemma create_node_params_errors_witness :
  KeyError "hostname" = TypeError \/
  KeyError "hostname" = AttributeError "ram" \/
  exists k,
    k ∈ ["size"; "product"; "template"; "password"; "ssh_key"; "username";
         "hostname"]
    /\ ({[ "size" := ASize (mkNodeSize (VStr "94fd37a7") (VStr "Block 1GB")
                              (VInt 1024) (VInt 20) (VFloat 0.5)
                              (VFloat 0.15) Sample.driver);
           "product" := AVal (VStr "94fd37a7");
           "template" := AVal (VStr "c66b8145");
           "password" := AVal (VStr "secret");
           "ssh_key" := AVal (VStr "ssh-rsa AAAA");
           "username" := AVal (VStr "root") ]} : gmap string arg) !! k = None
    /\ KeyError "hostname" = KeyError k.
Proof.
  apply create_node_params_errors. vm_compute. reflexivity.
Defined.

(** With the seven keywords present and a size whose [ram] is an integer,
    the parameters assemble. *)
Theorem create_node_params_accepts (kwargs : gmap string arg)
    (size : NodeSize) (r : Z) :
  kwargs !! "size" = Some (ASize size) -> ram size = VInt r ->
  is_Some (kwargs !! "product") -> is_Some (kwargs !! "template") ->
  is_Some (kwargs !! "password") -> is_Some (kwargs !! "ssh_key") ->
  is_Some (kwargs !! "username") -> is_Some (kwargs !! "hostname") ->
  exists params, create_node_params kwargs = Ok params.
Proof.
  intros Hsize Hram [product Hp] [template Ht] [password Hw] [ssh_key Hk]
    [username Hu] [hostname Hh].
  unfold create_node_params, kwarg.
  rewrite Hsize; simpl. rewrite Hram; simpl.
  rewrite Hp; simpl. rewrite Ht; simpl. rewrite Hw; simpl.
  rewrite Hk; simpl. rewrite Hu; simpl. rewrite Hh; simpl. eauto.
Qed.

Lemma create_node_params_accepts_witness :
  exists params,
    create_node_params
      {[ "size" := ASize (mkNodeSize (VStr "94fd37a7") (VStr "Block 1GB")
                            (VInt 1024) (VInt 20) (VFloat 0.5) (VFloat 0.15)
                            Sample.driver);
         "product" := AVal (VStr "94fd37a7");
         "template" := AVal (VStr "c66b8145");
         "password" := AVal (VStr "secret");
         "ssh_key" := AVal (VStr "ssh-rsa AAAA");
         "username" := AVal (VStr "");
         "hostname" := AVal (VStr "web1") ]} = Ok params.
Proof.
  eapply create_node_params_accepts;
    first [ vm_compute; reflexivity | vm_compute; eauto ].
Defined.

Lemma create_node_params_username_witness :
  exists username,
    ({[ "size" := ASize (mkNodeSize (VStr "94fd37a7") (VStr "Block 1GB")
                           (VInt 1024) (VInt 20) (VFloat 0.5) (VFloat 0.15)
                           Sample.driver);
        "product" := AVal (VStr "94fd37a7");
        "template" := AVal (VStr "c66b8145");
        "password" := AVal (VStr "secret");
        "ssh_key" := AVal (VStr "ssh-rsa AAAA");
        "username" := AVal (VStr "");
        "hostname" := AVal (VStr "web1") ]} : gmap string arg)
    !! "username" = Some username.
Proof.
  match goal with
  | |- exists username, ?kw !! _ = _ =>
      destruct (create_node_params kw) as [params|e] eqn:H
  end.
  - destruct (create_node_params_username _ params H) as (u & Hu & _).
    exists u. exact Hu.
  - vm_compute in H. discriminate H.
Defined.
